(** * TranslationService: language detection and translation glue

    A shallow embedding of [src/translation_service.py].  Python strings are
    sequences of Unicode code points; the calls to langdetect, googletrans,
    the OpenAI client and the caller's last-language accessor are functions
    that either return or raise, and every call is recorded in a trace, so
    that "no external call is made" is a statement about the trace. *)

From Stdlib Require Import NArith QArith Ascii String.
From stdpp Require Import gmap strings list.

Open Scope N_scope.

(** ** Python strings *)

(** A character is a code point, a [str] a sequence of them. *)
Abbreviation char := N (only parsing).
Abbreviation str := (list N) (only parsing).

(** String literals of the source, written as Rocq literals. *)
Fixpoint lit (s : string) : str :=
  match s with
  | EmptyString => []
  | String a s' => N_of_ascii a :: lit s'
  end.

Definition str_eqb (a b : str) : bool := bool_decide (a = b).

(** The part of the Unicode character database that Python's built-ins read
    outside ASCII.  Inside ASCII the classes are fixed by CPython and written
    out below; outside, they depend on the Unicode version the interpreter
    was built with, so they are taken as given. *)
Record unicode_db : Type := {
  ucd_isspace : char -> bool;
  ucd_isdigit : char -> bool;
  ucd_lower : str -> str
}.

Definition is_ascii (c : char) : bool := c <? 128.

(** ASCII whitespace as in CPython's [_Py_ascii_whitespace]: TAB, LF, VT, FF,
    CR, FS, GS, RS, US and space. *)
Definition ascii_isspace (c : char) : bool :=
  ((9 <=? c) && (c <=? 13)) || ((28 <=? c) && (c <=? 31)) || (c =? 32).

Definition ascii_isdigit (c : char) : bool := (48 <=? c) && (c <=? 57).

Definition ascii_lower (c : char) : char :=
  if (65 <=? c) && (c <=? 90) then c + 32 else c.

Section Strings.
Variable U : unicode_db.

(** [Py_UNICODE_ISSPACE]: used by [str.strip()] and by [\s] in a [str]
    pattern of [re]. *)
Definition isspace (c : char) : bool :=
  if is_ascii c then ascii_isspace c else ucd_isspace U c.

(** [Py_UNICODE_ISDIGIT] on one character. *)
Definition isdigit (c : char) : bool :=
  if is_ascii c then ascii_isdigit c else ucd_isdigit U c.

(** [str.isdigit()]: all characters are digits and there is at least one. *)
Definition str_isdigit (s : str) : bool :=
  match s with
  | [] => false
  | _ :: _ => forallb isdigit s
  end.

(** [str.lower()]: on an all-ASCII string, the ASCII letters are folded. *)
Definition str_lower (s : str) : str :=
  if forallb is_ascii s then map ascii_lower s else ucd_lower U s.

Fixpoint lstrip (s : str) : str :=
  match s with
  | [] => []
  | c :: s' => if isspace c then lstrip s' else s
  end.

Definition rstrip (s : str) : str := rev (lstrip (rev s)).

(** [str.strip()] with no argument. *)
Definition strip (s : str) : str := rstrip (lstrip s).

(** [len(s)] *)
Definition len (s : str) : N := N.of_nat (length s).

(** [s.startswith(p)] and [s.endswith(p)] for a one-character [p]. *)
Definition startswith1 (s : str) (p : char) : bool :=
  match s with
  | c :: _ => c =? p
  | [] => false
  end.

Definition endswith1 (s : str) (p : char) : bool := startswith1 (rev s) p.

(** The slice [s[1:-1]]. *)
Definition slice_1_m1 (s : str) : str := removelast (tl s).

(** ** The regular expression of [is_number_only_text] *)

(** The character class [[\s\-\.\,\(\)\/]]: whitespace, hyphen, period,
    comma, the two parentheses and the slash. *)
Definition in_strip_class (c : char) : bool :=
  isspace c
  || (c =? 45) || (c =? 46) || (c =? 44) || (c =? 40) || (c =? 41) || (c =? 47).

(** [re.sub(r'[cls]+', repl, s)]: the scan replaces each maximal run of
    class characters by one copy of [repl]; [in_run] says that the
    character before the current one was already part of a match. *)
Fixpoint re_sub_runs (cls : char -> bool) (repl : str) (in_run : bool) (s : str) : str :=
  match s with
  | [] => []
  | c :: s' =>
      if cls c
      then (if in_run then [] else repl) ++ re_sub_runs cls repl true s'
      else c :: re_sub_runs cls repl false s'
  end.

Definition re_sub_class_plus (cls : char -> bool) (repl s : str) : str :=
  re_sub_runs cls repl false s.

(** [is_number_only_text] *)
Definition is_number_only_text (text : str) : bool :=
  let clean_text := re_sub_class_plus in_strip_class [] text in
  str_isdigit clean_text && (0 <? len clean_text).

(** The spec's wording of the same check: drop every whitespace character
    and every hyphen, period, comma, parenthesis and slash; what is left is
    non-empty and all digits. *)
Definition spec_number_only (text : str) : Prop :=
  let rest := List.filter (fun c => negb (in_strip_class c)) text in
  rest <> [] /\ Forall (fun c => isdigit c = true) rest.

End Strings.

(** ** Exceptions, external calls and the call trace *)

(** The exceptions of the model are instances of [Exception], the class every
    handler of the source catches: the two that the source's own attribute
    and index accesses raise, and whatever a dependency raises. *)
Inductive exn : Type :=
  | IndexError
  | AttributeError
  | DependencyError (msg : str).

Inductive result (A : Type) : Type :=
  | Ok (a : A)
  | Raise (e : exn).
Arguments Ok {A} a.
Arguments Raise {A} e.

(** The three prompt templates of [translate_with_llm] and the one of
    [detect_language_with_llm], with the values the f-string interpolates.
    The rendered prompt is a function of these, so a client that is any
    function of the template and its arguments covers every client that is a
    function of the rendered text. *)
Inductive prompt : Type :=
  | DetectionPrompt (text : str)
  | UrduToEnglishPrompt (text : str)
  | EnglishToUrduPrompt (text : str)
  | GenericPrompt (source_lang target_lang text : str).

(** The keyword arguments of [chat.completions.create]; the single message
    has role "user" and the prompt as content. *)
Record chat_request : Type := {
  model : str;
  user_content : prompt;
  max_tokens : option N;
  temperature : Q
}.

(** The response object, as far as the source reads it:
    [response.choices[0].message.content]. *)
Record chat_message : Type := { content : option str }.
Record chat_choice : Type := { message : chat_message }.
Record chat_completion : Type := { choices : list chat_choice }.

(** The object returned by googletrans' [Translator.translate]. *)
Record translated : Type := { text : str }.

(** The external collaborators. *)
Definition Translator : Type := str -> str -> str -> result translated.
Definition OpenAI : Type := chat_request -> result chat_completion.
Definition last_language_accessor : Type := str -> result str.

Inductive call : Type :=
  | CallDetect (text : str)
  | CallTranslate (text src dest : str)
  | CallChat (request : chat_request)
  | CallLastLanguage (sender_id : str).

(** A computation: the external calls it made, in order, and its outcome.
    Logging is not recorded. *)
Definition M (A : Type) : Type := list call * result A.

Definition ret {A} (a : A) : M A := ([], Ok a).
Definition raise {A} (e : exn) : M A := ([], Raise e).

Definition bind {A B} (m : M A) (k : A -> M B) : M B :=
  match m with
  | (t, Ok a) => let (t', r) := k a in (t ++ t', r)
  | (t, Raise e) => (t, Raise e)
  end.

(** [try: m  except Exception as e: h e] *)
Definition try_except {A} (m : M A) (h : exn -> M A) : M A :=
  match m with
  | (t, Ok a) => (t, Ok a)
  | (t, Raise e) => let (t', r) := h e in (t ++ t', r)
  end.

Notation "'let!' x ':=' m 'in' k" := (bind m (fun x => k))
  (at level 10, x name, m at level 100, k at level 200).

Definition calls {A} (m : M A) : list call := fst m.
Definition outcome {A} (m : M A) : result A := snd m.

Definition external {A} (c : call) (r : result A) : M A := ([c], r).

(** ** The service *)

Record TranslationService : Type := {
  translator : Translator;
  openai_client : option OpenAI;
  use_llm : bool
}.

(** [__init__]: the client exists only when the [openai] package imports
    ([OpenAI_class] is [Some]) and [OPENAI_API_KEY] is set and non-empty. *)
Definition init (new_translator : Translator)
    (OpenAI_class : option (str -> OpenAI)) (api_key : option str) : TranslationService :=
  match OpenAI_class with
  | Some new_client =>
      match api_key with
      | Some (c :: k) =>
          {| translator := new_translator;
             openai_client := Some (new_client (c :: k));
             use_llm := true |}
      | _ =>
          {| translator := new_translator; openai_client := None; use_llm := false |}
      end
  | None =>
      {| translator := new_translator; openai_client := None; use_llm := false |}
  end.

Section Service.
Variable U : unicode_db.
(** [langdetect.detect] *)
Variable detect : str -> result str.
(** [googletrans.LANGUAGES]: language code to display name. *)
Variable LANGUAGES : gmap str str.
Variable self : TranslationService.

(** [code in LANGUAGES] *)
Definition in_LANGUAGES (code : str) : bool :=
  bool_decide (is_Some (LANGUAGES !! code)).

Definition en : str := lit "en".
Definition ur : str := lit "ur".

(** [detected in LANGUAGES or detected == 'ur'] *)
Definition valid_code (code : str) : bool :=
  in_LANGUAGES code || str_eqb code ur.

(** [fallback_detection] *)
Definition fallback_detection (text : str) : M str :=
  try_except
    (let! detected := external (CallDetect text) (detect text) in
     if in_LANGUAGES detected then ret detected else ret en)
    (fun _ => ret en).

(** [self.openai_client.chat.completions.create(...)]; on [None] the
    attribute access raises. *)
Definition chat_completions_create (request : chat_request) : M chat_completion :=
  match openai_client self with
  | Some client => external (CallChat request) (client request)
  | None => raise AttributeError
  end.

(** [response.choices[0].message.content] followed by a [str] method. *)
Definition first_content (response : chat_completion) : M str :=
  match choices response with
  | [] => raise IndexError
  | choice :: _ =>
      match content (message choice) with
      | Some s => ret s
      | None => raise AttributeError
      end
  end.

(** [not self.use_llm or not self.openai_client] *)
Definition llm_unavailable : bool :=
  negb (use_llm self) || negb (bool_decide (is_Some (openai_client self))).

(** The request of the detector: five tokens at most, temperature 0. *)
Definition detection_request (text : str) : chat_request :=
  {| model := lit "gpt-3.5-turbo";
     user_content := DetectionPrompt text;
     max_tokens := Some 5;
     temperature := 0%Q |}.

(** [detect_language_with_llm] *)
Definition detect_language_with_llm (text : str) : M str :=
  if llm_unavailable then fallback_detection text
  else
    try_except
      (let! response := chat_completions_create (detection_request text) in
       let! reply := first_content response in
       let detected_lang := str_lower U (strip U reply) in
       if valid_code detected_lang then ret detected_lang
       else fallback_detection text)
      (fun _ => fallback_detection text).

(** [translate_with_google] *)
Definition translate_with_google (text_in source_lang target_lang : str) : M str :=
  try_except
    (let! result := external (CallTranslate text_in source_lang target_lang)
                             (translator self text_in source_lang target_lang) in
     ret (text result))
    (fun _ => ret text_in).

(** The prompt chosen by the language pair. *)
Definition translation_prompt (text_in source_lang target_lang : str) : prompt :=
  if str_eqb source_lang ur && str_eqb target_lang en then UrduToEnglishPrompt text_in
  else if str_eqb source_lang en && str_eqb target_lang ur then EnglishToUrduPrompt text_in
  else GenericPrompt source_lang target_lang text_in.

(** The request of the translator: no token limit, temperature 0.1. *)
Definition translation_request (text_in source_lang target_lang : str) : chat_request :=
  {| model := lit "gpt-3.5-turbo";
     user_content := translation_prompt text_in source_lang target_lang;
     max_tokens := None;
     temperature := (1 # 10)%Q |}.

(** [translate_with_llm] *)
Definition translate_with_llm (text_in source_lang target_lang : str) : M str :=
  if llm_unavailable then translate_with_google text_in source_lang target_lang
  else
    try_except
      (let! response := chat_completions_create
          (translation_request text_in source_lang target_lang) in
       let! reply := first_content response in
       let translated := strip U reply in
       let translated :=
         if startswith1 translated 34 && endswith1 translated 34
         then slice_1_m1 translated else translated in
       ret translated)
      (fun _ => translate_with_google text_in source_lang target_lang).

(** The [try] block of [translate_to_english]. *)
Definition translate_to_english_body (text_in source_lang : str) : M str :=
  if str_eqb source_lang en then ret text_in
  else if is_number_only_text U text_in then ret text_in
  else if use_llm self && str_eqb source_lang ur
       then translate_with_llm text_in source_lang en
       else translate_with_google text_in source_lang en.

(** [translate_to_english] *)
Definition translate_to_english (text_in source_lang : str) : M str :=
  try_except (translate_to_english_body text_in source_lang) (fun _ => ret text_in).

(** The [try] block of [translate_from_english]. *)
Definition translate_from_english_body (text_in target_lang : str) : M str :=
  if str_eqb target_lang en then ret text_in
  else if use_llm self && str_eqb target_lang ur
       then translate_with_llm text_in en target_lang
       else translate_with_google text_in en target_lang.

(** [translate_from_english] *)
Definition translate_from_english (text_in target_lang : str) : M str :=
  try_except (translate_from_english_body text_in target_lang) (fun _ => ret text_in).

(** [sender_id and get_last_language_func]: true exactly when the sender
    id is a non-empty string and an accessor was passed; both default to
    [None]. *)
Definition context_supplied (sender_id : option str)
    (get_last_language_func : option last_language_accessor)
    : option (str * last_language_accessor) :=
  match sender_id, get_last_language_func with
  | Some (c :: s), Some f => Some (c :: s, f)
  | _, _ => None
  end.

(** The [try] block of [detect_language_smart]. *)
Definition detect_language_smart_body (text_in : str) (sender_id : option str)
    (get_last_language_func : option last_language_accessor) : M str :=
  if len (strip U text_in) <? 3 then
    match context_supplied sender_id get_last_language_func with
    | Some (sid, f) =>
        let! last_lang := external (CallLastLanguage sid) (f sid) in
        if negb (str_eqb last_lang en) then ret last_lang else ret en
    | None => ret en
    end
  else if is_number_only_text U text_in then
    match context_supplied sender_id get_last_language_func with
    | Some (sid, f) =>
        let! last_lang := external (CallLastLanguage sid) (f sid) in
        ret last_lang
    | None => ret en
    end
  else
    let! detected :=
      if use_llm self then detect_language_with_llm text_in
      else fallback_detection text_in in
    if valid_code detected then ret detected else ret en.

(** [detect_language_smart] *)
Definition detect_language_smart (text_in : str) (sender_id : option str)
    (get_last_language_func : option last_language_accessor) : M str :=
  try_except
    (detect_language_smart_body text_in sender_id get_last_language_func)
    (fun _ => ret en).

(** [detect_language]: kept for backward compatibility. *)
Definition detect_language (text_in : str) : M str :=
  detect_language_smart text_in None None.

(** [get_supported_languages] *)
Definition get_supported_languages : gmap str str := LANGUAGES.

End Service.

(** ** Display names *)

Definition ascii_isalpha (c : char) : bool :=
  ((65 <=? c) && (c <=? 90)) || ((97 <=? c) && (c <=? 122)).

Definition ascii_upper (c : char) : char :=
  if (97 <=? c) && (c <=? 122) then c - 32 else c.

(** [str.title()] on an all-ASCII string, as CPython's loop: a character
    that follows a cased one is lower-cased, any other is title-cased;
    [previous_is_cased] starts false. *)
Fixpoint ascii_title (previous_is_cased : bool) (s : str) : str :=
  match s with
  | [] => []
  | c :: s' =>
      (if previous_is_cased then ascii_lower c else ascii_upper c)
        :: ascii_title (ascii_isalpha c) s'
  end.

(** [str.title()]; [ucd_title] is what the Unicode database gives on a
    string with a character outside ASCII. *)
Definition str_title (ucd_title : str -> str) (s : str) : str :=
  if forallb is_ascii s then ascii_title false s else ucd_title s.

(** [get_language_name]; [LANGUAGES.get(code, default)] is the entry when
    there is one and the default otherwise. *)
Definition get_language_name (ucd_title : str -> str) (LANGUAGES : gmap str str)
    (lang_code : str) : str :=
  if str_eqb lang_code ur then lit "Urdu/Roman Urdu"
  else default (str_title ucd_title lang_code) (LANGUAGES !! lang_code).

(** ** Reading the call trace *)

Definition is_chat (c : call) : bool :=
  match c with CallChat _ => true | _ => false end.

Definition is_accessor_call (c : call) : bool :=
  match c with CallLastLanguage _ => true | _ => false end.

(** What [translate_with_llm] does to the stripped reply: one pair of
    wrapping double quotes is removed. *)
Definition unquote (translated : str) : str :=
  if startswith1 translated 34 && endswith1 translated 34
  then slice_1_m1 translated else translated.

(** ** Sample collaborators

    Concrete dependencies on which the operations are run below. *)

(** A database with no whitespace, digit or case mapping outside ASCII. *)
Definition ucd_ascii : unicode_db :=
  {| ucd_isspace := fun _ => false; ucd_isdigit := fun _ => false; ucd_lower := fun s => s |}.

(** A fragment of googletrans' table. *)
Definition sample_LANGUAGES : gmap str str :=
  <[lit "en" := lit "english"]>
    (<[lit "fr" := lit "french"]> (<[lit "de" := lit "german"]> ∅)).

(** A detector that answers German, a translator that answers one fixed
    word, a client that answers one fixed reply. *)
Definition detect_de : str -> result str := fun _ => Ok (lit "de").

Definition translator_const (answer : str) : Translator :=
  fun _ _ _ => Ok {| text := answer |}.

Definition client_const (reply : str) : OpenAI :=
  fun _ => Ok {| choices := [ {| message := {| content := Some reply |} |} ] |}.

Definition service_no_llm : TranslationService :=
  {| translator := translator_const (lit "hallo"); openai_client := None; use_llm := false |}.

Definition service_llm (reply : str) : TranslationService :=
  {| translator := translator_const (lit "hallo");
     openai_client := Some (client_const reply);
     use_llm := true |}.

(** A client whose every call raises, and a service that uses it. *)
Definition client_down : OpenAI := fun _ => Raise (DependencyError (lit "timeout")).

Definition service_llm_down : TranslationService :=
  {| translator := translator_const (lit "hallo");
     openai_client := Some client_down;
     use_llm := true |}.

(** The number of non-whitespace characters of a text. *)
Definition non_whitespace_count (U : unicode_db) (t : str) : nat :=
  length (List.filter (fun c => negb (isspace U c)) t).

Lemma re_sub_runs_empty cls b s :
  re_sub_runs cls [] b s = List.filter (fun c => negb (cls c)) s.
Proof.
  revert b; induction s as [|c s IH]; intros b; simpl; [done|].
  destruct (cls c); simpl.
  - destruct b; apply IH.
  - by rewrite IH.
Qed.

Lemma str_isdigit_spec U s :
  str_isdigit U s = true <-> s <> [] /\ Forall (fun c => isdigit U c = true) s.
Proof.
  destruct s as [|c s].
  - simpl. split; [done | intros [H _]; done].
  - unfold str_isdigit. rewrite forallb_forall, Forall_forall.
    split.
    + intros H; split; [done|]. intros x Hx. apply H. by apply list_elem_of_In.
    + intros [_ H] x Hx. apply H. by apply list_elem_of_In.
Qed.

(** ** Strings *)

Lemma lit_length s : length (lit s) = String.length s.
Proof. induction s; simpl; congruence. Qed.

Lemma is_number_only_text_filter U t :
  is_number_only_text U t
  = str_isdigit U (List.filter (fun c => negb (in_strip_class U c)) t).
Proof.
  unfold is_number_only_text, re_sub_class_plus. cbv zeta.
  rewrite re_sub_runs_empty.
  destruct (List.filter _ t) as [|c r] eqn:E; [done|].
  replace (0 <? len (c :: r)) with true; [by rewrite andb_true_r|].
  symmetry. apply N.ltb_lt. unfold len. simpl. lia.
Qed.

(** C4: [is_number_only_text t] is true exactly when, after every whitespace
    character, hyphen, period, comma, parenthesis and slash is removed from
    [t], the rest is non-empty and all digits; it is true of "123-456",
    "(021) 111-222" and "42501-5440926-9". *)
Theorem is_number_only_text_iff U t :
  (is_number_only_text U t = true <-> spec_number_only U t)
  /\ is_number_only_text U (lit "123-456") = true
  /\ is_number_only_text U (lit "(021) 111-222") = true
  /\ is_number_only_text U (lit "42501-5440926-9") = true.
Proof.
  split; [|repeat split; reflexivity].
  rewrite is_number_only_text_filter. apply str_isdigit_spec.
Qed.

(** ** Construction *)

(** After [__init__], [use_llm] holds exactly when a client exists. *)
Lemma init_use_llm new_translator OpenAI_class api_key :
  let self := init new_translator OpenAI_class api_key in
  use_llm self = bool_decide (is_Some (openai_client self)).
Proof.
  unfold init. destruct OpenAI_class as [new_client|]; [|done].
  by destruct api_key as [[|c k]|].
Qed.

(** ** The error monad *)

Lemma try_except_ok {A} (m : M A) h v : outcome m = Ok v -> try_except m h = m.
Proof. destruct m as [t [a|e]]; simpl; [done|discriminate]. Qed.

Lemma bind_ret_r {A} (m : M A) : bind m ret = m.
Proof. destruct m as [t [a|e]]; simpl; [by rewrite app_nil_r|done]. Qed.

(** ** The fallback paths *)

Lemma fallback_detection_eq detect L t :
  fallback_detection detect L t
  = ([CallDetect t],
     Ok (match detect t with
         | Ok d => if in_LANGUAGES L d then d else en
         | Raise _ => en
         end)).
Proof.
  unfold fallback_detection, external. destruct (detect t) as [d|e]; simpl; [|done].
  by destruct (in_LANGUAGES L d).
Qed.

Lemma translate_with_google_eq self t src dst :
  translate_with_google self t src dst
  = ([CallTranslate t src dst],
     Ok (match translator self t src dst with
         | Ok r => text r
         | Raise _ => t
         end)).
Proof.
  unfold translate_with_google, external.
  by destruct (translator self t src dst) as [r|e].
Qed.

(** What the fallback detector answers is in the table, or is English. *)
Lemma fallback_detection_value detect L t :
  exists d, outcome (fallback_detection detect L t) = Ok d
            /\ (in_LANGUAGES L d = true \/ d = en).
Proof.
  rewrite fallback_detection_eq. eexists; split; [done|].
  destruct (detect t) as [d|e]; [|by right].
  destruct (in_LANGUAGES L d) eqn:E; [by left|by right].
Qed.

(** C7: [translate_with_google] never raises; when the translation call
    returns, the result is the translated text, and when it raises, the
    result is the input text. *)
Theorem translate_with_google_never_raises self t src dst :
  (exists v, outcome (translate_with_google self t src dst) = Ok v)
  /\ (forall r, translator self t src dst = Ok r ->
        outcome (translate_with_google self t src dst) = Ok (text r))
  /\ (forall e, translator self t src dst = Raise e ->
        outcome (translate_with_google self t src dst) = Ok t).
Proof.
  rewrite translate_with_google_eq. simpl. repeat split.
  - by eexists.
  - by intros r ->.
  - by intros e ->.
Qed.

(** ** The LLM paths *)

Lemma translate_with_llm_ok U self t src dst :
  exists v, outcome (translate_with_llm U self t src dst) = Ok v.
Proof.
  unfold translate_with_llm.
  destruct (llm_unavailable self); [rewrite translate_with_google_eq; by eexists|].
  unfold chat_completions_create, first_content, external, raise, ret.
  destruct (openai_client self) as [client|]; simpl;
    [|rewrite translate_with_google_eq; by eexists].
  destruct (client _) as [[[|[[[reply|]]] rest]]|e]; simpl;
    try (rewrite translate_with_google_eq; by eexists).
  by eexists.
Qed.

Lemma detect_language_with_llm_value U detect L self t :
  exists d, outcome (detect_language_with_llm U detect L self t) = Ok d
            /\ (valid_code L d = true \/ d = en).
Proof.
  assert (Hfb : exists d, outcome (fallback_detection detect L t) = Ok d
                          /\ (valid_code L d = true \/ d = en)).
  { destruct (fallback_detection_value detect L t) as (d & Hd & [Hin|Hen]);
      exists d; (split; [done|]); [left|by right].
    unfold valid_code. by rewrite Hin. }
  unfold detect_language_with_llm.
  destruct (llm_unavailable self); [done|].
  destruct (fallback_detection detect L t) as [tr [d0|e0]];
    [|destruct Hfb as (? & ? & _); discriminate].
  unfold chat_completions_create, first_content, external, raise, ret.
  destruct (openai_client self) as [client|]; simpl; [|done].
  destruct (client _) as [[[|[[[reply|]]] rest]]|e]; simpl; try done.
  destruct (valid_code L (str_lower U (strip U reply))) eqn:Hv; simpl; [|done].
  eexists; split; [done|by left].
Qed.

(** ** The translators of the orchestrator *)

Lemma str_eqb_refl a : str_eqb a a = true.
Proof. unfold str_eqb. by apply bool_decide_eq_true. Qed.

Lemma str_eqb_ne a b : a <> b -> str_eqb a b = false.
Proof. unfold str_eqb. intros. by apply bool_decide_eq_false. Qed.

Lemma translate_to_english_body_ok U self t src :
  exists v, outcome (translate_to_english_body U self t src) = Ok v.
Proof.
  unfold translate_to_english_body.
  destruct (str_eqb src en); [by eexists|].
  destruct (is_number_only_text U t); [by eexists|].
  destruct (use_llm self && str_eqb src ur).
  - apply translate_with_llm_ok.
  - rewrite translate_with_google_eq. by eexists.
Qed.

Lemma translate_from_english_body_ok U self t dst :
  exists v, outcome (translate_from_english_body U self t dst) = Ok v.
Proof.
  unfold translate_from_english_body.
  destruct (str_eqb dst en); [by eexists|].
  destruct (use_llm self && str_eqb dst ur).
  - apply translate_with_llm_ok.
  - rewrite translate_with_google_eq. by eexists.
Qed.

Lemma translate_to_english_is_body U self t src :
  translate_to_english U self t src = translate_to_english_body U self t src.
Proof.
  destruct (translate_to_english_body_ok U self t src) as [v Hv].
  unfold translate_to_english. by rewrite (try_except_ok _ _ v).
Qed.

Lemma translate_from_english_is_body U self t dst :
  translate_from_english U self t dst = translate_from_english_body U self t dst.
Proof.
  destruct (translate_from_english_body_ok U self t dst) as [v Hv].
  unfold translate_from_english. by rewrite (try_except_ok _ _ v).
Qed.

(** C8: with English as source, [translate_to_english] returns its input,
    and with English as target, [translate_from_english] returns its input;
    neither makes an external call. *)
Theorem translate_english_identity U self t :
  translate_to_english U self t en = ([], Ok t)
  /\ translate_from_english U self t en = ([], Ok t).
Proof.
  unfold translate_to_english, translate_from_english,
    translate_to_english_body, translate_from_english_body.
  by rewrite str_eqb_refl.
Qed.

Lemma translate_to_english_body_number_only U self t src :
  is_number_only_text U t = true ->
  translate_to_english_body U self t src = ([], Ok t).
Proof.
  intros Hnum. unfold translate_to_english_body.
  rewrite Hnum. by destruct (str_eqb src en).
Qed.

(** C5: on a number-only text, [translate_to_english] returns the text
    unchanged for every source language, and makes no external call. *)
Theorem translate_to_english_number_only U self t src :
  is_number_only_text U t = true ->
  translate_to_english U self t src = ([], Ok t).
Proof.
  intros Hnum. unfold translate_to_english.
  by rewrite translate_to_english_body_number_only.
Qed.

Lemma translate_to_english_number_only_witness :
  is_number_only_text ucd_ascii (lit "(021) 111-222") = true
  /\ translate_to_english ucd_ascii (service_llm (lit "x")) (lit "(021) 111-222") ur
     = ([], Ok (lit "(021) 111-222")).
Proof.
  split; [reflexivity|].
  apply (translate_to_english_number_only ucd_ascii (service_llm (lit "x"))
           (lit "(021) 111-222") ur).
  reflexivity.
Defined.

Lemma translate_with_llm_calls U self t src dst :
  calls (translate_with_llm U self t src dst) <> [].
Proof.
  unfold translate_with_llm.
  destruct (llm_unavailable self) eqn:Hu; [by rewrite translate_with_google_eq|].
  unfold llm_unavailable in Hu.
  destruct (openai_client self) as [client|] eqn:Hc.
  2:{ rewrite bool_decide_eq_false_2 in Hu by (by intros [? ?]).
      by rewrite orb_true_r in Hu. }
  unfold chat_completions_create, external. rewrite Hc.
  destruct (client _) as [response|e]; simpl.
  - destruct (first_content response) as [tr [reply|e]]; simpl; [done|].
    by rewrite translate_with_google_eq.
  - by rewrite translate_with_google_eq.
Qed.

(** C10: [translate_from_english] has no number-only skip.  On a number-only
    text and a target other than English it is the call of a translator,
    the LLM translator when [use_llm] holds and the target is Urdu and the
    fallback translator otherwise, so an external call is made and, without
    the LLM, the result is whatever the translation call answers;
    [translate_to_english] on the same arguments returns the text with no
    call. *)
Theorem translate_from_english_no_number_skip U self t dst :
  is_number_only_text U t = true ->
  dst <> en ->
  translate_from_english U self t dst
  = (if use_llm self && str_eqb dst ur
     then translate_with_llm U self t en dst
     else translate_with_google self t en dst)
  /\ calls (translate_from_english U self t dst) <> []
  /\ (use_llm self = false ->
      forall r, translator self t en dst = Ok r ->
        translate_from_english U self t dst = ([CallTranslate t en dst], Ok (text r)))
  /\ translate_to_english U self t dst = ([], Ok t).
Proof.
  intros Hnum Hdst.
  assert (E : translate_from_english U self t dst
     = (if use_llm self && str_eqb dst ur
        then translate_with_llm U self t en dst
        else translate_with_google self t en dst)).
  { rewrite translate_from_english_is_body. unfold translate_from_english_body.
    by rewrite (str_eqb_ne dst en). }
  split; [exact E|]. rewrite E. repeat split.
  - destruct (use_llm self && str_eqb dst ur).
    + apply translate_with_llm_calls.
    + by rewrite translate_with_google_eq.
  - intros -> r Hr. simpl. by rewrite translate_with_google_eq, Hr.
  - rewrite translate_to_english_is_body.
    by apply translate_to_english_body_number_only.
Qed.

Lemma translate_from_english_no_number_skip_witness :
  translate_from_english ucd_ascii service_no_llm (lit "123-456") (lit "de")
  = ([CallTranslate (lit "123-456") en (lit "de")], Ok (lit "hallo"))
  /\ translate_to_english ucd_ascii service_no_llm (lit "123-456") (lit "de")
     = ([], Ok (lit "123-456")).
Proof.
  destruct (translate_from_english_no_number_skip ucd_ascii service_no_llm
              (lit "123-456") (lit "de")) as (_ & _ & H & H').
  - reflexivity.
  - discriminate.
  - split; [|exact H']. exact (H eq_refl {| text := lit "hallo" |} eq_refl).
Defined.

(** ** The LLM detector *)

Lemma valid_code_spec (L : gmap str str) code :
  valid_code L code = true <-> is_Some (L !! code) \/ code = ur.
Proof.
  unfold valid_code, in_LANGUAGES, str_eqb.
  rewrite orb_true_iff, !bool_decide_eq_true. done.
Qed.

Lemma llm_available self client :
  use_llm self = true -> openai_client self = Some client ->
  llm_unavailable self = false.
Proof.
  intros Hu Hc. unfold llm_unavailable. rewrite Hu, Hc.
  rewrite bool_decide_eq_true_2; [done|by eexists].
Qed.

(** C6: with the LLM configured, [detect_language_with_llm] returns the
    stripped, lower-cased reply when that code is in [LANGUAGES] or is
    [ur]; on any other reply, on a response without a readable reply, and
    when the call raises, it returns what [fallback_detection] returns on
    the same text. *)
Theorem detect_language_with_llm_validates U detect L self client t :
  use_llm self = true ->
  openai_client self = Some client ->
  let request := detection_request t in
  let fallback := fallback_detection detect L t in
  (forall reply rest,
     client request
       = Ok {| choices := {| message := {| content := Some reply |} |} :: rest |} ->
     let code := str_lower U (strip U reply) in
     ((is_Some (L !! code) \/ code = ur) ->
        detect_language_with_llm U detect L self t = ([CallChat request], Ok code))
     /\ (~ (is_Some (L !! code) \/ code = ur) ->
        detect_language_with_llm U detect L self t
        = (CallChat request :: calls fallback, outcome fallback)))
  /\ (forall response e,
        client request = Ok response ->
        outcome (first_content response) = Raise e ->
        detect_language_with_llm U detect L self t
        = (CallChat request :: calls fallback, outcome fallback))
  /\ (forall e,
        client request = Raise e ->
        detect_language_with_llm U detect L self t
        = (CallChat request :: calls fallback, outcome fallback)).
Proof.
  intros Hu Hc request fallback.
  unfold detect_language_with_llm.
  rewrite (llm_available self client Hu Hc).
  unfold chat_completions_create, external. rewrite Hc.
  subst fallback. rewrite fallback_detection_eq. fold request.
  split; [|split].
  - intros reply rest Hreply. rewrite Hreply. simpl.
    set (code := str_lower U (strip U reply)). split.
    + intros Hvalid. apply valid_code_spec in Hvalid. by rewrite Hvalid.
    + intros Hinvalid. destruct (valid_code L code) eqn:Hv; [|done].
      by apply valid_code_spec in Hv.
  - intros response e Hr He. rewrite Hr. simpl.
    destruct response as [[|[[[reply|]]] rest]]; simpl in *; done.
  - intros e He. by rewrite He.
Qed.

Lemma detect_language_with_llm_validates_witness :
  detect_language_with_llm ucd_ascii detect_de sample_LANGUAGES
    (service_llm (lit " XX ")) (lit "hello")
  = ([CallChat (detection_request (lit "hello")); CallDetect (lit "hello")],
     Ok (lit "de")).
Proof.
  destruct (detect_language_with_llm_validates ucd_ascii detect_de sample_LANGUAGES
              (service_llm (lit " XX ")) (client_const (lit " XX ")) (lit "hello")
              eq_refl eq_refl) as (Hreply & _ & _).
  destruct (Hreply (lit " XX ") [] eq_refl) as [_ Hinvalid].
  apply Hinvalid.
  intros [Hin|Heq]; [|discriminate].
  vm_compute in Hin. destruct Hin as [name Hname]. discriminate.
Defined.

(** ** The smart detector *)

Lemma detect_language_smart_body_detects U detect L self t sid f :
  3 <= len (strip U t) ->
  is_number_only_text U t = false ->
  detect_language_smart_body U detect L self t sid f
  = (let! detected :=
       if use_llm self then detect_language_with_llm U detect L self t
       else fallback_detection detect L t in
     if valid_code L detected then ret detected else ret en).
Proof.
  intros Hlen Hnum. unfold detect_language_smart_body.
  apply N.ltb_ge in Hlen. by rewrite Hlen, Hnum.
Qed.

(** Validating a code that is valid or English changes nothing. *)
Lemma validate_fixed L (m : M str) :
  (exists d, outcome m = Ok d /\ (valid_code L d = true \/ d = en)) ->
  (let! detected := m in if valid_code L detected then ret detected else ret en) = m.
Proof.
  intros (d & Hd & Hv). destruct m as [tr r]. simpl in Hd. subst r. simpl.
  destruct (valid_code L d) eqn:E; simpl; rewrite app_nil_r; [done|].
  destruct Hv as [Hv|Hv]; congruence.
Qed.

Lemma fallback_detection_value_valid detect L t :
  exists d, outcome (fallback_detection detect L t) = Ok d
            /\ (valid_code L d = true \/ d = en).
Proof.
  destruct (fallback_detection_value detect L t) as (d & Hd & [Hin|Hen]);
    exists d; (split; [done|]); [left|by right].
  unfold valid_code. by rewrite Hin.
Qed.

Lemma detect_language_smart_body_ok_unless_accessor U detect L self t sid f :
  (exists v, outcome (detect_language_smart_body U detect L self t sid f) = Ok v)
  \/ (exists s g e, context_supplied sid f = Some (s, g) /\ g s = Raise e
        /\ outcome (detect_language_smart_body U detect L self t sid f) = Raise e).
Proof.
  unfold detect_language_smart_body.
  destruct (len (strip U t) <? 3); [|destruct (is_number_only_text U t)].
  - destruct (context_supplied sid f) as [[s g]|] eqn:Hctx; [|left; by eexists].
    unfold external. destruct (g s) as [v|e] eqn:Hg; simpl.
    + left. destruct (negb (str_eqb v en)); by eexists.
    + right. by exists s, g, e.
  - destruct (context_supplied sid f) as [[s g]|] eqn:Hctx; [|left; by eexists].
    unfold external. destruct (g s) as [v|e] eqn:Hg; simpl.
    + left. by eexists.
    + right. by exists s, g, e.
  - left. rewrite validate_fixed.
    + destruct (use_llm self).
      * destruct (detect_language_with_llm_value U detect L self t) as (d & Hd & _).
        by exists d.
      * destruct (fallback_detection_value detect L t) as (d & Hd & _). by exists d.
    + destruct (use_llm self).
      * apply detect_language_with_llm_value.
      * apply fallback_detection_value_valid.
Qed.

(** C2 (as amended): without the LLM, [detect_language_smart] is
    [fallback_detection] on every text of trimmed length at least 3 that is
    not number-only; [translate_to_english] is [translate_with_google] to
    English for every source other than English on every text that is not
    number-only; [translate_from_english] is [translate_with_google] from
    English for every target other than English.  Results and external
    calls are the same. *)
Theorem no_llm_equals_fallback U detect L self t sid f src dst :
  use_llm self = false ->
  (3 <= len (strip U t) -> is_number_only_text U t = false ->
     detect_language_smart U detect L self t sid f = fallback_detection detect L t)
  /\ (src <> en -> is_number_only_text U t = false ->
      translate_to_english U self t src = translate_with_google self t src en)
  /\ (dst <> en ->
      translate_from_english U self t dst = translate_with_google self t en dst).
Proof.
  intros Hu. repeat split.
  - intros Hlen Hnum. unfold detect_language_smart.
    rewrite detect_language_smart_body_detects by done. rewrite Hu.
    rewrite validate_fixed by apply fallback_detection_value_valid.
    by rewrite fallback_detection_eq.
  - intros Hsrc Hnum. rewrite translate_to_english_is_body.
    unfold translate_to_english_body.
    by rewrite (str_eqb_ne src en), Hnum, Hu.
  - intros Hdst. rewrite translate_from_english_is_body.
    unfold translate_from_english_body.
    by rewrite (str_eqb_ne dst en), Hu.
Qed.

Lemma no_llm_equals_fallback_witness :
  detect_language_smart ucd_ascii detect_de sample_LANGUAGES service_no_llm
    (lit "guten tag") None None
  = fallback_detection detect_de sample_LANGUAGES (lit "guten tag")
  /\ translate_to_english ucd_ascii service_no_llm (lit "guten tag") (lit "de")
     = translate_with_google service_no_llm (lit "guten tag") (lit "de") en
  /\ translate_from_english ucd_ascii service_no_llm (lit "good day") (lit "de")
     = translate_with_google service_no_llm (lit "good day") en (lit "de").
Proof.
  destruct (no_llm_equals_fallback ucd_ascii detect_de sample_LANGUAGES service_no_llm
              (lit "guten tag") None None (lit "de") (lit "de") eq_refl)
    as (Hd & Ht & _).
  destruct (no_llm_equals_fallback ucd_ascii detect_de sample_LANGUAGES service_no_llm
              (lit "good day") None None (lit "de") (lit "de") eq_refl)
    as (_ & _ & Hf).
  split; [|split].
  - apply Hd; [vm_compute; discriminate|reflexivity].
  - apply Ht; [discriminate|reflexivity].
  - apply Hf. discriminate.
Defined.

(** The claim without the restrictions fails: on the short text "ja" the
    smart detector answers English while the fallback detector answers what
    langdetect says; with English as source or target the translate
    functions return the text while the fallback translator returns what the
    translation call answers. *)
Lemma no_llm_not_always_fallback :
  ~ (forall U detect L self t sid f, use_llm self = false ->
       outcome (detect_language_smart U detect L self t sid f)
       = outcome (fallback_detection detect L t))
  /\ ~ (forall U self t src, use_llm self = false ->
       outcome (translate_to_english U self t src)
       = outcome (translate_with_google self t src en))
  /\ ~ (forall U self t dst, use_llm self = false ->
       outcome (translate_from_english U self t dst)
       = outcome (translate_with_google self t en dst)).
Proof.
  split; [|split].
  - intros H.
    specialize (H ucd_ascii detect_de sample_LANGUAGES service_no_llm
                  (lit "ja") None None eq_refl).
    vm_compute in H. discriminate.
  - intros H.
    specialize (H ucd_ascii service_no_llm (lit "12-34") (lit "de") eq_refl).
    vm_compute in H. discriminate.
  - intros H.
    specialize (H ucd_ascii service_no_llm (lit "good day") en eq_refl).
    vm_compute in H. discriminate.
Qed.

(** Trimming removes whitespace only, so a text of trimmed length below 3
    has fewer than 3 non-whitespace characters; the converse fails when
    whitespace stands between them. *)
Lemma non_whitespace_count_lstrip U t :
  non_whitespace_count U (lstrip U t) = non_whitespace_count U t.
Proof.
  unfold non_whitespace_count. induction t as [|c t IH]; simpl; [done|].
  destruct (isspace U c) eqn:E; simpl; [done|]. by rewrite E.
Qed.

Lemma non_whitespace_count_rev U t :
  non_whitespace_count U (rev t) = non_whitespace_count U t.
Proof.
  unfold non_whitespace_count. induction t as [|c t IH]; simpl; [done|].
  rewrite List.filter_app, length_app, IH. simpl.
  destruct (negb (isspace U c)); simpl; lia.
Qed.

Lemma non_whitespace_count_strip U t :
  non_whitespace_count U (strip U t) = non_whitespace_count U t.
Proof.
  unfold strip, rstrip.
  by rewrite non_whitespace_count_rev, non_whitespace_count_lstrip,
    non_whitespace_count_rev, non_whitespace_count_lstrip.
Qed.

Lemma short_after_trim_few_non_whitespace U t :
  len (strip U t) < 3 -> (non_whitespace_count U t < 3)%nat.
Proof.
  intros H. rewrite <- non_whitespace_count_strip.
  unfold non_whitespace_count, len in *.
  pose proof (List.filter_length_le (fun c => negb (isspace U c)) (strip U t)).
  lia.
Qed.

(** C3 (as amended): on every text whose length after trimming is below 3,
    with no usable sender and accessor pair, [detect_language_smart] returns
    English and calls no detector. *)
Theorem detect_language_smart_short U detect L self t sid f :
  len (strip U t) < 3 ->
  context_supplied sid f = None ->
  detect_language_smart U detect L self t sid f = ([], Ok en).
Proof.
  intros Hlen Hctx. unfold detect_language_smart, detect_language_smart_body.
  apply N.ltb_lt in Hlen. by rewrite Hlen, Hctx.
Qed.

Lemma detect_language_smart_short_witness :
  len (strip ucd_ascii (lit "  ja ")) < 3
  /\ detect_language_smart ucd_ascii detect_de sample_LANGUAGES service_no_llm
       (lit "  ja ") None None
     = ([], Ok en).
Proof.
  split; [reflexivity|].
  apply (detect_language_smart_short ucd_ascii detect_de sample_LANGUAGES
           service_no_llm (lit "  ja ") None None); reflexivity.
Defined.

(** "a b" has two non-whitespace characters and trimmed length 3: the
    detector is consulted and its answer returned. *)
Lemma detect_language_smart_short_counterexample :
  ~ (forall U detect L self t,
       (non_whitespace_count U t < 3)%nat ->
       outcome (detect_language_smart U detect L self t None None) = Ok en).
Proof.
  intros H.
  specialize (H ucd_ascii detect_de sample_LANGUAGES service_no_llm (lit "a b")).
  assert (Hcount : (non_whitespace_count ucd_ascii (lit "a b") < 3)%nat)
    by (vm_compute; lia).
  specialize (H Hcount). vm_compute in H. discriminate.
Qed.

(** Every table leaves some code out. *)
Lemma unsupported_code_exists (L : gmap str str) :
  exists code, valid_code L code = false.
Proof.
  destruct (exist_fresh (dom L ∪ {[ur]})) as [code Hcode].
  exists code. apply not_true_is_false. intros Hv.
  apply valid_code_spec in Hv. apply Hcode.
  destruct Hv as [Hin| ->]; [|set_solver].
  apply elem_of_union_l. by apply elem_of_dom.
Qed.

(** C9: on a number-only text of trimmed length at least 3, with a non-empty
    sender id and an accessor (the source's test [sender_id and
    get_last_language_func]), [detect_language_smart] returns the value the
    accessor returns, unvalidated; for some accessor that value is a code
    that is neither in [LANGUAGES] nor [ur]. *)
Theorem detect_language_smart_number_only U detect L self t sid f s g :
  is_number_only_text U t = true ->
  3 <= len (strip U t) ->
  context_supplied sid f = Some (s, g) ->
  (forall v, g s = Ok v ->
     detect_language_smart U detect L self t sid f = ([CallLastLanguage s], Ok v))
  /\ (exists code,
        valid_code L code = false
        /\ detect_language_smart U detect L self t sid (Some (fun _ => Ok code))
           = ([CallLastLanguage s], Ok code)).
Proof.
  intros Hnum Hlen Hctx. apply N.ltb_ge in Hlen.
  assert (Hsid : forall g', context_supplied sid (Some g') = Some (s, g')).
  { intros g'. unfold context_supplied in *.
    destruct sid as [[|c r]|]; try discriminate.
    destruct f; [|discriminate]. by simplify_eq. }
  split.
  - intros v Hv. unfold detect_language_smart, detect_language_smart_body.
    rewrite Hlen, Hnum, Hctx. unfold external. by rewrite Hv.
  - destruct (unsupported_code_exists L) as [code Hcode].
    exists code. split; [done|].
    unfold detect_language_smart, detect_language_smart_body.
    by rewrite Hlen, Hnum, Hsid.
Qed.

Lemma detect_language_smart_number_only_witness :
  valid_code sample_LANGUAGES (lit "xx") = false
  /\ detect_language_smart ucd_ascii detect_de sample_LANGUAGES service_no_llm
       (lit "42501-5440926-9") (Some (lit "u1")) (Some (fun _ => Ok (lit "xx")))
     = ([CallLastLanguage (lit "u1")], Ok (lit "xx")).
Proof.
  split; [reflexivity|].
  destruct (detect_language_smart_number_only ucd_ascii detect_de sample_LANGUAGES
              service_no_llm (lit "42501-5440926-9")
              (Some (lit "u1")) (Some (fun _ => Ok (lit "xx")))
              (lit "u1") (fun _ => Ok (lit "xx"))) as [H _].
  - reflexivity.
  - vm_compute. discriminate.
  - reflexivity.
  - apply (H (lit "xx")). reflexivity.
Defined.

(** ** No exception reaches the caller *)


Lemma try_except_default {A} (m : M A) (d : A) e :
  outcome m = Raise e -> outcome (try_except m (fun _ => ret d)) = Ok d.
Proof. destruct m as [tr [a|e']]; simpl; [discriminate|done]. Qed.

Section AllRaise.
Variable U : unicode_db.
Variable detect : str -> result str.
Variable L : gmap str str.
Variable self : TranslationService.

Hypothesis detect_raises : forall x, exists e, detect x = Raise e.
Hypothesis translator_raises : forall a b c, exists e, translator self a b c = Raise e.
Hypothesis client_raises :
  forall client request, openai_client self = Some client ->
    exists e, client request = Raise e.








End AllRaise.

(** * Further properties of the service *)

(** ** The fallback detector *)

(** X1: [fallback_detection] calls langdetect exactly once and never raises;
    its answer is langdetect's code when that code is in [LANGUAGES], and
    English when the code is not in the table or langdetect raises, so the
    answer is always in the table or English. *)
Theorem fallback_detection_sound (detect : str -> result str) (L : gmap str str) (t : str) :
  calls (fallback_detection detect L t) = [CallDetect t]
  /\ exists d,
       outcome (fallback_detection detect L t) = Ok d
       /\ (is_Some (L !! d) \/ d = en)
       /\ (forall c, detect t = Ok c -> is_Some (L !! c) -> d = c)
       /\ (forall c, detect t = Ok c -> L !! c = None -> d = en)
       /\ (forall e, detect t = Raise e -> d = en).
Proof.
  rewrite fallback_detection_eq. split; [done|].
  eexists; split; [done|].
  unfold in_LANGUAGES.
  destruct (detect t) as [c|e].
  - case_bool_decide as Hc.
    + split; [by left|]. split; [by intros ? [= ->]|].
      split; [|done]. intros c' [= ->] Hn. rewrite Hn in Hc. by destruct Hc.
    + split; [by right|]. split; [|done]. by intros c' [= ->] ?.
  - split; [by right|]. done.
Qed.

(** ** The LLM detector *)

Lemma detect_language_with_llm_calls U detect L self t :
  let m := detect_language_with_llm U detect L self t in
  calls m = [CallDetect t]
  \/ calls m = [CallChat (detection_request t)]
  \/ calls m = [CallChat (detection_request t); CallDetect t].
Proof.
  unfold detect_language_with_llm.
  destruct (llm_unavailable self) eqn:Hu; [left; by rewrite fallback_detection_eq|].
  unfold llm_unavailable in Hu.
  destruct (openai_client self) as [client|] eqn:Hc.
  2:{ rewrite bool_decide_eq_false_2 in Hu by (by intros [? ?]).
      by rewrite orb_true_r in Hu. }
  unfold chat_completions_create, external. rewrite Hc, fallback_detection_eq.
  destruct (client _) as [[[|[[[reply|]]] rest]]|e]; simpl; try by (right; right).
  destruct (valid_code L _); simpl; [right; by left|by right; right].
Qed.

(** X2: [detect_language_with_llm] never raises and never returns an
    unvalidated code: its answer is in [LANGUAGES], or [ur], or English.  It
    calls the LLM at most once and langdetect at most once, the LLM
    first. *)
Theorem detect_language_with_llm_sound (U : unicode_db) (detect : str -> result str)
    (L : gmap str str) (self : TranslationService) (t : str) :
  let m := detect_language_with_llm U detect L self t in
  (exists d, outcome m = Ok d /\ (is_Some (L !! d) \/ d = ur \/ d = en))
  /\ (calls m = [CallDetect t]
      \/ calls m = [CallChat (detection_request t)]
      \/ calls m = [CallChat (detection_request t); CallDetect t]).
Proof.
  split; [|apply detect_language_with_llm_calls].
  destruct (detect_language_with_llm_value U detect L self t) as (d & Hd & Hv).
  exists d. split; [done|].
  destruct Hv as [Hv|Hv]; [|by right; right].
  apply valid_code_spec in Hv. destruct Hv; [by left|by right; left].
Qed.

(** ** The branches of the smart detector *)

Section SmartDetector.
Variable U : unicode_db.
Variable detect : str -> result str.
Variable L : gmap str str.
Variable self : TranslationService.

Lemma str_eqb_eq (a b : str) : str_eqb a b = true -> a = b.
Proof. unfold str_eqb. by intros ?%bool_decide_eq_true. Qed.

Lemma heuristic_branch_eq (t : str) (sid : option str)
    (f : option last_language_accessor) :
  len (strip U t) < 3 \/ is_number_only_text U t = true ->
  detect_language_smart U detect L self t sid f
  = match context_supplied sid f with
    | Some (s, g) =>
        ([CallLastLanguage s], Ok (match g s with Ok v => v | Raise _ => en end))
    | None => ([], Ok en)
    end.
Proof.
  intros Hbranch.
  unfold detect_language_smart, detect_language_smart_body, external.
  destruct (len (strip U t) <? 3) eqn:Hlen.
  - destruct (context_supplied sid f) as [[s g]|]; [|done].
    destruct (g s) as [v|e]; simpl; [|done].
    destruct (str_eqb v en) eqn:Hv; simpl; [|done].
    by rewrite (str_eqb_eq v en Hv).
  - destruct Hbranch as [Hshort|Hnum].
    { apply N.ltb_lt in Hshort. congruence. }
    rewrite Hnum.
    destruct (context_supplied sid f) as [[s g]|]; [|done].
    by destruct (g s) as [v|e].
Qed.

(** X3: on a text that is short after trimming or number-only, no detector
    and no LLM is consulted.  With a non-empty sender id and an accessor,
    the accessor is called once and its value is the answer (English when it
    raises); without them the answer is English and nothing is called. *)
Theorem detect_language_smart_heuristics (t : str) (sid : option str)
    (f : option last_language_accessor) :
  len (strip U t) < 3 \/ is_number_only_text U t = true ->
  detect_language_smart U detect L self t sid f
  = match context_supplied sid f with
    | Some (s, g) =>
        ([CallLastLanguage s], Ok (match g s with Ok v => v | Raise _ => en end))
    | None => ([], Ok en)
    end.
Proof. apply heuristic_branch_eq. Qed.

Lemma detection_branch_eq (t : str) (sid : option str)
    (f : option last_language_accessor) :
  3 <= len (strip U t) ->
  is_number_only_text U t = false ->
  detect_language_smart U detect L self t sid f
  = (if use_llm self then detect_language_with_llm U detect L self t
     else fallback_detection detect L t).
Proof.
  intros Hlen Hnum. unfold detect_language_smart.
  rewrite detect_language_smart_body_detects by done.
  assert (Hv : exists d,
             outcome (if use_llm self then detect_language_with_llm U detect L self t
                      else fallback_detection detect L t) = Ok d
             /\ (valid_code L d = true \/ d = en)).
  { destruct (use_llm self);
      [apply detect_language_with_llm_value|apply fallback_detection_value_valid]. }
  rewrite validate_fixed by exact Hv.
  destruct Hv as (d & Hd & _). by apply try_except_ok with d.
Qed.

(** X4: on a text of trimmed length at least 3 that is not number-only, the
    sender id and the accessor are ignored, and the final validation changes
    nothing: the answer and the calls are those of
    [detect_language_with_llm] when [use_llm] holds and of
    [fallback_detection] otherwise. *)
Theorem detect_language_smart_detection (t : str) (sid : option str)
    (f : option last_language_accessor) :
  3 <= len (strip U t) ->
  is_number_only_text U t = false ->
  detect_language_smart U detect L self t sid f
  = (if use_llm self then detect_language_with_llm U detect L self t
     else fallback_detection detect L t).
Proof. apply detection_branch_eq. Qed.

(** X5: [detect_language], the one-argument entry point, never raises,
    never calls an accessor, and answers a code of [LANGUAGES], [ur] or
    English. *)
Theorem detect_language_codomain (t : str) :
  let m := detect_language U detect L self t in
  (exists d, outcome m = Ok d /\ (is_Some (L !! d) \/ d = ur \/ d = en))
  /\ Forall (fun c => is_accessor_call c = false) (calls m).
Proof.
  unfold detect_language.
  destruct (len (strip U t) <? 3) eqn:Hlen;
    [|destruct (is_number_only_text U t) eqn:Hnum].
  - rewrite heuristic_branch_eq by (left; by apply N.ltb_lt).
    simpl. split; [|done]. exists en. split; [done|by right; right].
  - rewrite heuristic_branch_eq by (by right).
    simpl. split; [|done]. exists en. split; [done|by right; right].
  - rewrite detection_branch_eq by (by try apply N.ltb_ge).
    destruct (use_llm self).
    + destruct (detect_language_with_llm_value U detect L self t) as (d & Hd & Hv).
      split.
      * exists d. split; [done|].
        destruct Hv as [Hv|Hv]; [|by right; right].
        apply valid_code_spec in Hv. destruct Hv; [by left|by right; left].
      * destruct (detect_language_with_llm_calls U detect L self t) as [H|[H|H]];
          simpl in H; rewrite H; repeat constructor.
    + rewrite fallback_detection_eq. simpl. split; [|repeat constructor].
      eexists; split; [done|].
      destruct (detect t) as [c|e]; [|by right; right].
      unfold in_LANGUAGES. case_bool_decide; [by left|by right; right].
Qed.

End SmartDetector.

Lemma detect_language_smart_heuristics_witness :
  detect_language_smart ucd_ascii detect_de sample_LANGUAGES service_no_llm
    (lit "ok") (Some (lit "u1")) (Some (fun _ => Ok ur))
  = ([CallLastLanguage (lit "u1")], Ok ur).
Proof.
  apply (detect_language_smart_heuristics ucd_ascii detect_de sample_LANGUAGES
           service_no_llm (lit "ok") (Some (lit "u1")) (Some (fun _ => Ok ur))).
  left. reflexivity.
Defined.

Lemma detect_language_smart_detection_witness :
  detect_language_smart ucd_ascii detect_de sample_LANGUAGES (service_llm (lit "fr"))
    (lit "bonjour") (Some (lit "u1")) (Some (fun _ => Ok ur))
  = detect_language_with_llm ucd_ascii detect_de sample_LANGUAGES
      (service_llm (lit "fr")) (lit "bonjour").
Proof.
  apply (detect_language_smart_detection ucd_ascii detect_de sample_LANGUAGES
           (service_llm (lit "fr")) (lit "bonjour")
           (Some (lit "u1")) (Some (fun _ => Ok ur))).
  - vm_compute. discriminate.
  - reflexivity.
Defined.

(** ** The LLM translator *)

Section LLMTranslator.
Variable U : unicode_db.
Variable self : TranslationService.

Lemma unavailable_without_client :
  openai_client self = None -> llm_unavailable self = true.
Proof.
  intros Hc. unfold llm_unavailable. rewrite Hc.
  rewrite bool_decide_eq_false_2 by (by intros [? ?]). apply orb_true_r.
Qed.

Lemma translate_with_llm_available_eq (client : OpenAI) (t src dst : str) :
  llm_unavailable self = false ->
  openai_client self = Some client ->
  translate_with_llm U self t src dst
  = match client (translation_request t src dst) with
    | Ok {| choices := {| message := {| content := Some reply |} |} :: _ |} =>
        ([CallChat (translation_request t src dst)], Ok (unquote (strip U reply)))
    | _ =>
        (CallChat (translation_request t src dst)
           :: calls (translate_with_google self t src dst),
         outcome (translate_with_google self t src dst))
    end.
Proof.
  intros Hu Hc. unfold translate_with_llm. rewrite Hu.
  unfold chat_completions_create, external. rewrite Hc.
  rewrite translate_with_google_eq.
  by destruct (client _) as [[[|[[[reply|]]] rest]]|e].
Qed.

Lemma unquote_wrapped (body : str) : unquote (34 :: body ++ [34]) = body.
Proof.
  unfold unquote, startswith1, endswith1, slice_1_m1. simpl.
  rewrite rev_app_distr. simpl. by rewrite removelast_last.
Qed.

Lemma translate_with_llm_calls_shape (t src dst : str) :
  let m := translate_with_llm U self t src dst in
  calls m = [CallTranslate t src dst]
  \/ calls m = [CallChat (translation_request t src dst)]
  \/ calls m = [CallChat (translation_request t src dst); CallTranslate t src dst].
Proof.
  simpl. destruct (llm_unavailable self) eqn:Hu.
  { left. unfold translate_with_llm. by rewrite Hu, translate_with_google_eq. }
  destruct (openai_client self) as [client|] eqn:Hc.
  2:{ by rewrite unavailable_without_client in Hu. }
  rewrite (translate_with_llm_available_eq client) by done.
  rewrite translate_with_google_eq.
  destruct (client _) as [[[|[[[reply|]]] rest]]|e]; simpl;
    first [by right; right | right; by left].
Qed.

(** X6: when [translate_with_llm] gets no reply (no LLM configured, the call
    raises, the response has no choice or no content), its result is that of
    [translate_with_google] on the same arguments; with an LLM configured
    the failed chat call precedes the translation call. *)
Theorem translate_with_llm_falls_back (t src dst : str) :
  let request := translation_request t src dst in
  let google := translate_with_google self t src dst in
  (llm_unavailable self = true -> translate_with_llm U self t src dst = google)
  /\ (forall client,
        llm_unavailable self = false ->
        openai_client self = Some client ->
        (exists e, client request = Raise e)
        \/ (exists response e, client request = Ok response
              /\ outcome (first_content response) = Raise e) ->
        translate_with_llm U self t src dst
        = (CallChat request :: calls google, outcome google)).
Proof.
  split.
  - intros Hu. unfold translate_with_llm. by rewrite Hu.
  - intros client Hu Hc Hfail.
    rewrite (translate_with_llm_available_eq client) by done.
    destruct Hfail as [[e ->]|(response & e & -> & Hfirst)]; [done|].
    by destruct response as [[|[[[reply|]]] rest]].
Qed.

(** X7: when the LLM replies, [translate_with_llm] returns the stripped
    reply and calls nothing else.  A reply wrapped in double quotes loses
    exactly one pair of them, a reply that is a single double quote becomes
    the empty string, and any other reply is returned as stripped. *)
Theorem translate_with_llm_reply (client : OpenAI) (t src dst reply : str)
    (rest : list chat_choice) :
  llm_unavailable self = false ->
  openai_client self = Some client ->
  client (translation_request t src dst)
    = Ok {| choices := {| message := {| content := Some reply |} |} :: rest |} ->
  let request := translation_request t src dst in
  (forall body, strip U reply = 34 :: body ++ [34] ->
     translate_with_llm U self t src dst = ([CallChat request], Ok body))
  /\ (strip U reply = [34] ->
      translate_with_llm U self t src dst = ([CallChat request], Ok []))
  /\ (startswith1 (strip U reply) 34 = false \/ endswith1 (strip U reply) 34 = false ->
      translate_with_llm U self t src dst = ([CallChat request], Ok (strip U reply))).
Proof.
  intros Hu Hc Hreply.
  rewrite (translate_with_llm_available_eq client) by done. rewrite Hreply.
  split; [|split].
  - intros body ->. by rewrite unquote_wrapped.
  - by intros ->.
  - intros Hq. unfold unquote.
    destruct Hq as [-> | ->]; [done|by rewrite andb_false_r].
Qed.

(** X8: the public translate functions reach the LLM only for Urdu:
    every chat call of [translate_to_english] happens with [use_llm] on and
    source [ur] and carries the Urdu-to-English prompt on the input text;
    every chat call of [translate_from_english] happens with [use_llm] on
    and target [ur] and carries the English-to-Urdu prompt.  The generic
    prompt is never sent by them. *)
Theorem public_translation_prompts (t lang : str) :
  (forall request,
     In (CallChat request) (calls (translate_to_english U self t lang)) ->
     use_llm self = true /\ lang = ur
     /\ user_content request = UrduToEnglishPrompt t)
  /\ (forall request,
     In (CallChat request) (calls (translate_from_english U self t lang)) ->
     use_llm self = true /\ lang = ur
     /\ user_content request = EnglishToUrduPrompt t).
Proof.
  split; intros request.
  - rewrite translate_to_english_is_body. unfold translate_to_english_body.
    destruct (str_eqb lang en); [by intros []|].
    destruct (is_number_only_text U t); [by intros []|].
    destruct (use_llm self) eqn:Hu; simpl.
    2:{ rewrite translate_with_google_eq. simpl. by intros [?|[]]. }
    destruct (str_eqb lang ur) eqn:Hl.
    2:{ rewrite translate_with_google_eq. simpl. by intros [?|[]]. }
    apply str_eqb_eq in Hl. subst lang.
    destruct (translate_with_llm_calls_shape t ur en) as [H|[H|H]];
      simpl in H; rewrite H; simpl.
    + by intros [?|[]].
    + intros [[= <-]|[]]. done.
    + intros [[= <-]|[?|[]]]; done.
  - rewrite translate_from_english_is_body. unfold translate_from_english_body.
    destruct (str_eqb lang en); [by intros []|].
    destruct (use_llm self) eqn:Hu; simpl.
    2:{ rewrite translate_with_google_eq. simpl. by intros [?|[]]. }
    destruct (str_eqb lang ur) eqn:Hl.
    2:{ rewrite translate_with_google_eq. simpl. by intros [?|[]]. }
    apply str_eqb_eq in Hl. subst lang.
    destruct (translate_with_llm_calls_shape t en ur) as [H|[H|H]];
      simpl in H; rewrite H; simpl.
    + by intros [?|[]].
    + intros [[= <-]|[]]. done.
    + intros [[= <-]|[?|[]]]; done.
Qed.

End LLMTranslator.

Lemma translate_with_llm_reply_witness :
  translate_with_llm ucd_ascii
    (service_llm (32 :: 34 :: lit "check my balance" ++ [34; 10]))
    (lit "balance check karo") ur en
  = ([CallChat (translation_request (lit "balance check karo") ur en)],
     Ok (lit "check my balance")).
Proof.
  destruct (translate_with_llm_reply ucd_ascii
              (service_llm (32 :: 34 :: lit "check my balance" ++ [34; 10]))
              (client_const (32 :: 34 :: lit "check my balance" ++ [34; 10]))
              (lit "balance check karo") ur en
              (32 :: 34 :: lit "check my balance" ++ [34; 10]) [])
    as (Hwrapped & _ & _).
  - reflexivity.
  - reflexivity.
  - reflexivity.
  - apply (Hwrapped (lit "check my balance")). reflexivity.
Defined.

(** ** External calls of the public operations *)

(** X9: each public operation makes at most two external calls and calls no
    dependency twice.  A translate function calls nothing, or the
    translation API, or the LLM, or the LLM and then the translation API;
    [detect_language_smart] calls nothing, or the accessor alone, or
    langdetect, or the LLM, or the LLM and then langdetect. *)
Theorem public_operations_call_shapes (U : unicode_db) (detect : str -> result str)
    (L : gmap str str) (self : TranslationService) (t lang : str)
    (sid : option str) (f : option last_language_accessor) :
  (let m := translate_to_english U self t lang in
   calls m = [] \/ calls m = [CallTranslate t lang en]
   \/ calls m = [CallChat (translation_request t lang en)]
   \/ calls m = [CallChat (translation_request t lang en); CallTranslate t lang en])
  /\ (let m := translate_from_english U self t lang in
   calls m = [] \/ calls m = [CallTranslate t en lang]
   \/ calls m = [CallChat (translation_request t en lang)]
   \/ calls m = [CallChat (translation_request t en lang); CallTranslate t en lang])
  /\ (let m := detect_language_smart U detect L self t sid f in
   calls m = [] \/ (exists s, calls m = [CallLastLanguage s])
   \/ calls m = [CallDetect t]
   \/ calls m = [CallChat (detection_request t)]
   \/ calls m = [CallChat (detection_request t); CallDetect t]).
Proof.
  split; [|split]; cbv zeta.
  - rewrite translate_to_english_is_body. unfold translate_to_english_body.
    destruct (str_eqb lang en); [by left|].
    destruct (is_number_only_text U t); [by left|].
    destruct (use_llm self && str_eqb lang ur).
    + destruct (translate_with_llm_calls_shape U self t lang en) as [H|[H|H]];
        simpl in H; rewrite H; tauto.
    + rewrite translate_with_google_eq. right; by left.
  - rewrite translate_from_english_is_body. unfold translate_from_english_body.
    destruct (str_eqb lang en); [by left|].
    destruct (use_llm self && str_eqb lang ur).
    + destruct (translate_with_llm_calls_shape U self t en lang) as [H|[H|H]];
        simpl in H; rewrite H; tauto.
    + rewrite translate_with_google_eq. right; by left.
  - destruct (len (strip U t) <? 3) eqn:Hlen;
      [|destruct (is_number_only_text U t) eqn:Hnum].
    + rewrite heuristic_branch_eq by (left; by apply N.ltb_lt).
      destruct (context_supplied sid f) as [[s g]|]; [right; left; by exists s|by left].
    + rewrite heuristic_branch_eq by (by right).
      destruct (context_supplied sid f) as [[s g]|]; [right; left; by exists s|by left].
    + rewrite detection_branch_eq by (by try apply N.ltb_ge).
      destruct (use_llm self).
      * destruct (detect_language_with_llm_calls U detect L self t) as [H|[H|H]];
          simpl in H; rewrite H; tauto.
      * rewrite fallback_detection_eq. right; right; by left.
Qed.

(** ** Number-only texts *)

Lemma filter_separators U (sep : str) :
  forallb (in_strip_class U) sep = true ->
  List.filter (fun c => negb (in_strip_class U c)) sep = [].
Proof.
  induction sep as [|c sep IH]; simpl; [done|].
  intros [Hc Hsep]%andb_true_iff. rewrite Hc. simpl. by apply IH.
Qed.

(** X10: separators do not count: adding or removing a run of whitespace,
    hyphens, periods, commas, parentheses and slashes anywhere in a text
    does not change whether it is number-only. *)
Theorem is_number_only_text_separators (U : unicode_db) (a sep b : str) :
  forallb (in_strip_class U) sep = true ->
  is_number_only_text U (a ++ sep ++ b) = is_number_only_text U (a ++ b).
Proof.
  intros Hsep. rewrite !is_number_only_text_filter.
  by rewrite !List.filter_app, (filter_separators U sep Hsep).
Qed.

Lemma is_number_only_text_separators_witness :
  is_number_only_text ucd_ascii (lit "42501" ++ lit " - (/) " ++ lit "9")
  = is_number_only_text ucd_ascii (lit "42501" ++ lit "9").
Proof.
  apply (is_number_only_text_separators ucd_ascii (lit "42501") (lit " - (/) ") (lit "9")).
  reflexivity.
Defined.

(** X11: a number-only text has at least one digit, and each of its
    characters is a digit or a separator; so the empty text, a text of
    separators only and a text with a letter in it are not number-only. *)
Theorem is_number_only_text_necessary (U : unicode_db) (t : str) :
  is_number_only_text U t = true ->
  (exists c, In c t /\ isdigit U c = true)
  /\ (forall c, In c t -> isdigit U c = true \/ in_strip_class U c = true).
Proof.
  rewrite is_number_only_text_filter. intros [Hne Hall]%str_isdigit_spec.
  rewrite Forall_forall in Hall. split.
  - destruct (List.filter _ t) as [|c r] eqn:E; [done|].
    exists c. split.
    + assert (Hin : In c (List.filter (fun c => negb (in_strip_class U c)) t))
        by (rewrite E; by left).
      by apply List.filter_In in Hin as [? _].
    + apply Hall. rewrite <- E. rewrite E. by left.
  - intros c Hc. destruct (in_strip_class U c) eqn:Hs; [by right|left].
    apply Hall. apply list_elem_of_In, List.filter_In. by rewrite Hs.
Qed.

Lemma is_number_only_text_necessary_witness :
  (exists c, In c (lit "(021) 111-222") /\ isdigit ucd_ascii c = true)
  /\ (forall c, In c (lit "(021) 111-222") ->
        isdigit ucd_ascii c = true \/ in_strip_class ucd_ascii c = true).
Proof.
  apply (is_number_only_text_necessary ucd_ascii (lit "(021) 111-222")).
  reflexivity.
Defined.

(** X12: number-only texts are closed under concatenation. *)
Theorem is_number_only_text_app (U : unicode_db) (a b : str) :
  is_number_only_text U a = true ->
  is_number_only_text U b = true ->
  is_number_only_text U (a ++ b) = true.
Proof.
  rewrite !is_number_only_text_filter, List.filter_app.
  intros [Hna Ha]%str_isdigit_spec [Hnb Hb]%str_isdigit_spec.
  apply str_isdigit_spec. split.
  - destruct (List.filter _ a); [done|discriminate].
  - by apply Forall_app.
Qed.

Lemma is_number_only_text_app_witness :
  is_number_only_text ucd_ascii (lit "(021) " ++ lit "111-222") = true.
Proof.
  apply (is_number_only_text_app ucd_ascii (lit "(021) ") (lit "111-222"));
    reflexivity.
Defined.

(** ** Display names *)

Lemma ascii_lower_idem c : ascii_lower (ascii_lower c) = ascii_lower c.
Proof.
  unfold ascii_lower.
  destruct ((65 <=? c) && (c <=? 90)) eqn:E; [|by rewrite E].
  apply andb_true_iff in E as [H1%N.leb_le H2%N.leb_le].
  replace ((65 <=? c + 32) && (c + 32 <=? 90)) with false; [done|].
  symmetry. apply andb_false_iff. right. apply N.leb_gt. lia.
Qed.

Lemma ascii_lower_upper c : ascii_lower (ascii_upper c) = ascii_lower c.
Proof.
  unfold ascii_lower, ascii_upper.
  destruct ((97 <=? c) && (c <=? 122)) eqn:E; [|done].
  apply andb_true_iff in E as [H1%N.leb_le H2%N.leb_le].
  replace ((65 <=? c - 32) && (c - 32 <=? 90)) with true.
  2:{ symmetry. apply andb_true_iff. split; apply N.leb_le; lia. }
  replace ((65 <=? c) && (c <=? 90)) with false.
  2:{ symmetry. apply andb_false_iff. right. apply N.leb_gt. lia. }
  lia.
Qed.

Lemma ascii_title_lower b s : map ascii_lower (ascii_title b s) = map ascii_lower s.
Proof.
  revert b; induction s as [|c s IH]; intros b; simpl; [done|].
  rewrite IH. f_equal.
  destruct b; [apply ascii_lower_idem|apply ascii_lower_upper].
Qed.

Lemma ascii_title_length b s : length (ascii_title b s) = length s.
Proof. revert b; induction s as [|c s IH]; intros b; simpl; [done|]. by rewrite IH. Qed.

Lemma ascii_title_lowercase_tail s :
  forallb (fun c => (97 <=? c) && (c <=? 122)) s = true ->
  ascii_title true s = s.
Proof.
  induction s as [|c s IH]; simpl; [done|].
  intros [Hc Hs]%andb_true_iff.
  unfold ascii_isalpha. rewrite Hc, orb_true_r. rewrite (IH Hs). f_equal.
  unfold ascii_lower.
  apply andb_true_iff in Hc as [H1%N.leb_le H2%N.leb_le].
  replace ((65 <=? c) && (c <=? 90)) with false; [done|].
  symmetry. apply andb_false_iff. right. apply N.leb_gt. lia.
Qed.

(** X13: [get_language_name] answers "Urdu/Roman Urdu" for [ur] whatever the
    table holds, the table's name for any other code in the table, and for
    an ASCII code outside the table the code itself in title case: the same
    letters up to case, and for a code of lower-case letters the code with
    its first letter in upper case. *)
Theorem get_language_name_cases (ucd_title : str -> str) (L : gmap str str)
    (code : str) :
  get_language_name ucd_title L ur = lit "Urdu/Roman Urdu"
  /\ (code <> ur -> forall name, L !! code = Some name ->
        get_language_name ucd_title L code = name)
  /\ (code <> ur -> L !! code = None -> forallb is_ascii code = true ->
        length (get_language_name ucd_title L code) = length code
        /\ map ascii_lower (get_language_name ucd_title L code)
           = map ascii_lower code)
  /\ (forall c rest,
        code = c :: rest -> code <> ur -> L !! code = None ->
        forallb (fun c => (97 <=? c) && (c <=? 122)) code = true ->
        get_language_name ucd_title L code = (c - 32) :: rest).
Proof.
  unfold get_language_name. split; [by rewrite str_eqb_refl|].
  split; [|split].
  - intros Hne name Hname. by rewrite (str_eqb_ne code ur), Hname.
  - intros Hne Hnone Hascii. rewrite (str_eqb_ne code ur), Hnone by done.
    unfold str_title. rewrite Hascii. simpl.
    by rewrite ascii_title_length, ascii_title_lower.
  - intros c rest -> Hne Hnone Hlow.
    rewrite (str_eqb_ne _ ur), Hnone by done.
    assert (Hascii : forallb is_ascii (c :: rest) = true).
    { apply forallb_forall. intros x Hx.
      rewrite forallb_forall in Hlow. specialize (Hlow x Hx).
      apply andb_true_iff in Hlow as [_ H2%N.leb_le].
      unfold is_ascii. apply N.ltb_lt. lia. }
    unfold str_title. rewrite Hascii.
    simpl in Hlow. apply andb_true_iff in Hlow as [Hc Hrest].
    cbn [default ascii_title]. unfold ascii_isalpha, ascii_upper.
    rewrite Hc, orb_true_r. by rewrite ascii_title_lowercase_tail.
Qed.

(** ** Configuration *)

(** X14: [__init__] turns the LLM on exactly when the OpenAI package is
    importable and the API key is set and non-empty; the service it builds
    has a client exactly when [use_llm] holds, and keeps the translator it
    was given. *)
Theorem init_llm_mode (new_translator : Translator)
    (OpenAI_class : option (str -> OpenAI)) (api_key : option str) :
  let self := init new_translator OpenAI_class api_key in
  (use_llm self = true <->
     exists new_client c k, OpenAI_class = Some new_client /\ api_key = Some (c :: k))
  /\ (is_Some (openai_client self) <-> use_llm self = true)
  /\ llm_unavailable self = negb (use_llm self)
  /\ translator self = new_translator.
Proof.
  unfold init, llm_unavailable.
  destruct OpenAI_class as [new_client|]; [destruct api_key as [[|c k]|]|]; simpl.
  all: split; [|split; [|split]]; try done.
  all: try (split; [by intros [? ?]|done]).
  all: try (split; [done|by intros (? & ? & ? & ? & ?)]).
  all: try (split; [intros _; by exists new_client, c, k|done]).
  all: try (split; [by eexists|done]).
Qed.

(** ** The LLM is contacted only when configured *)

Lemma llm_unavailable_unless_configured self :
  use_llm self = false \/ openai_client self = None ->
  use_llm self = false \/ llm_unavailable self = true.
Proof.
  intros [H|H]; [by left|right]. by apply unavailable_without_client.
Qed.

(** X15: with [use_llm] off, or with no client, none of the public
    operations sends a request to the LLM, whatever the text, the languages
    and the sender context are. *)
Theorem no_chat_unless_configured (U : unicode_db) (detect : str -> result str)
    (L : gmap str str) (self : TranslationService) (t lang : str)
    (sid : option str) (f : option last_language_accessor) :
  use_llm self = false \/ openai_client self = None ->
  Forall (fun c => is_chat c = false)
    (calls (detect_language_smart U detect L self t sid f))
  /\ Forall (fun c => is_chat c = false) (calls (translate_to_english U self t lang))
  /\ Forall (fun c => is_chat c = false) (calls (translate_from_english U self t lang)).
Proof.
  intros Hcfg%llm_unavailable_unless_configured.
  assert (Hllm : forall src dst,
            Forall (fun c => is_chat c = false)
              (calls (if use_llm self && str_eqb lang ur
                      then translate_with_llm U self t src dst
                      else translate_with_google self t src dst))).
  { intros src dst. destruct Hcfg as [Hu|Hu].
    - rewrite Hu. simpl. rewrite translate_with_google_eq. by repeat constructor.
    - unfold translate_with_llm. rewrite Hu.
      destruct (use_llm self && str_eqb lang ur);
        rewrite translate_with_google_eq; by repeat constructor. }
  split; [|split].
  - destruct (len (strip U t) <? 3) eqn:Hlen;
      [|destruct (is_number_only_text U t) eqn:Hnum].
    + rewrite heuristic_branch_eq by (left; by apply N.ltb_lt).
      destruct (context_supplied sid f) as [[s g]|]; by repeat constructor.
    + rewrite heuristic_branch_eq by (by right).
      destruct (context_supplied sid f) as [[s g]|]; by repeat constructor.
    + rewrite detection_branch_eq by (by try apply N.ltb_ge).
      destruct Hcfg as [Hu|Hu].
      * rewrite Hu, fallback_detection_eq. by repeat constructor.
      * unfold detect_language_with_llm. rewrite Hu.
        destruct (use_llm self); rewrite fallback_detection_eq; by repeat constructor.
  - rewrite translate_to_english_is_body. unfold translate_to_english_body.
    destruct (str_eqb lang en); [by constructor|].
    destruct (is_number_only_text U t); [by constructor|]. apply Hllm.
  - rewrite translate_from_english_is_body. unfold translate_from_english_body.
    destruct (str_eqb lang en); [by constructor|]. apply Hllm.
Qed.

Lemma no_chat_unless_configured_witness :
  Forall (fun c => is_chat c = false)
    (calls (translate_to_english ucd_ascii
              {| translator := translator_const (lit "my balance");
                 openai_client := Some (client_const (lit "x"));
                 use_llm := false |}
              (lit "mera balance") ur)).
Proof.
  destruct (no_chat_unless_configured ucd_ascii detect_de sample_LANGUAGES
              {| translator := translator_const (lit "my balance");
                 openai_client := Some (client_const (lit "x"));
                 use_llm := false |}
              (lit "mera balance") ur None None) as (_ & H & _).
  - left. reflexivity.
  - exact H.
Defined.


(** ** Exceptions of the dependencies *)

Section Degrade.
Variable U : unicode_db.
Variable detect : str -> result str.
Variable L : gmap str str.
Variable self : TranslationService.











End Degrade.



(** The runs behind the three cases, and runs where a raising dependency
    does give the default. *)
Lemma degrade_runs :
  detect_language_smart ucd_ascii detect_de sample_LANGUAGES service_llm_down
    (lit "guten tag") None None
  = ([CallChat (detection_request (lit "guten tag")); CallDetect (lit "guten tag")],
     Ok (lit "de"))
  /\ translate_to_english ucd_ascii service_llm_down (lit "mera balance") ur
     = ([CallChat (translation_request (lit "mera balance") ur en);
         CallTranslate (lit "mera balance") ur en],
        Ok (lit "hallo"))
  /\ detect_language_smart ucd_ascii detect_de sample_LANGUAGES service_no_llm
       (lit "12") (Some (lit "u1")) (Some (fun _ => Raise IndexError))
     = ([CallLastLanguage (lit "u1")], Ok en)
  /\ detect_language_smart ucd_ascii (fun _ => Raise IndexError) sample_LANGUAGES
       service_llm_down (lit "guten tag") None None
     = ([CallChat (detection_request (lit "guten tag")); CallDetect (lit "guten tag")],
        Ok en)
  /\ translate_from_english ucd_ascii
       {| translator := fun _ _ _ => Raise IndexError;
          openai_client := None; use_llm := false |}
       (lit "my balance") (lit "de")
     = ([CallTranslate (lit "my balance") en (lit "de")], Ok (lit "my balance")).
Proof. vm_compute. repeat split. Qed.
